(** * restify: REST routes generated from a model (server/api/restify.js)

    A shallow embedding of [server/api/restify.js] and the properties of the
    routes it generates.

    - JavaScript objects used as maps are [gmap string _]; a property that is
      absent reads as [JUndefined], as in JavaScript.  Keys are ordinary own
      properties: inherited properties and the name [__proto__] are outside
      the model.
    - Joi schemas are records filled by the builder calls of the source.
    - A handler is a small program over three effects: the single awaited
      store call, [reply] and [logger.error].
    - [lib/util] and the model class are not part of this file's source; the
      functions the code calls on them are the variables of Section
      [Restify]. *)

From Stdlib Require Import ZArith String Ascii.
From stdpp Require Import gmap strings list fin_maps.

Local Open Scope string_scope.
Local Open Scope Z_scope.

(** ** JavaScript values *)

(** Primitive values carried by query strings, path parameters and payloads.
    Numbers are the integers (what [Joi.number().integer()] lets through). *)
Inductive jsval : Type :=
  | JUndefined
  | JNull
  | JBool (b : bool)
  | JNum (n : Z)
  | JStr (s : string).

#[global] Instance jsval_eq_dec : EqDecision jsval.
Proof. solve_decision. Defined.

(** A plain object with primitive property values. *)
Abbreviation jsobj := (gmap string jsval).

(** [o[k]] and [o.k]: an absent property reads as [undefined]. *)
Definition js_get (o : jsobj) (k : string) : jsval :=
  default JUndefined (o !! k).

(** [_.get(o, k, dflt)]: the default replaces an [undefined] result only. *)
Definition lodash_get (o : jsobj) (k : string) (dflt : jsval) : jsval :=
  match js_get o k with
  | JUndefined => dflt
  | v => v
  end.

(** Errors are values with a name and a message. *)
Record JsError : Type := MkError { err_name : string; err_message : string }.

#[global] Instance JsError_eq_dec : EqDecision JsError.
Proof. solve_decision. Defined.

(** A synchronous computation either returns or throws. *)
Inductive Completion (A : Type) : Type :=
  | Normal (a : A)
  | Throws (e : JsError).
Arguments Normal {A} a.
Arguments Throws {A} e.

(** ** Strings *)

(** [s.split(sep)] for a separator of one character. *)
Fixpoint split (sep : ascii) (s : string) : list string :=
  match s with
  | EmptyString => [EmptyString]
  | String c s' =>
      if decide (c = sep) then EmptyString :: split sep s'
      else match split sep s' with
           | [] => [String c EmptyString]
           | t :: ts => String c t :: ts
           end
  end.

(** [xs.join(sep)], the inverse of [split]. *)
Fixpoint join (sep : ascii) (xs : list string) : string :=
  match xs with
  | [] => EmptyString
  | [x] => x
  | x :: rest => x ++ String sep (join sep rest)
  end.

(** Whether a character occurs in a string. *)
Fixpoint occurs (c : ascii) (s : string) : bool :=
  match s with
  | EmptyString => false
  | String d s' => bool_decide (d = c) || occurs c s'
  end.

(** Truthiness of a string: every string but the empty one. *)
Definition truthy_str (s : string) : bool :=
  match s with
  | EmptyString => false
  | String _ _ => true
  end.

(** [_.includes(xs, x)] on an array of strings. *)
Definition includes (xs : list string) (x : string) : bool :=
  bool_decide (x ∈ xs).

(** The tokens of a [fields] parameter:
    [urlFieldsStr.split(',').filter(value => value)]. *)
Definition urlFields (urlFieldsStr : string) : list string :=
  List.filter truthy_str (split "," urlFieldsStr).

(** ** Requests *)

Record Request : Type := MkRequest {
  params : jsobj;
  query : jsobj;
  payload : jsobj
}.

(** ** Projection and filter objects *)

(** The body of the [_.forEach] callback of [_getSelectObjFromFieldsInUrl]:
    one model field, acting on the [result] object. *)
Definition select_step (urlFields : list string)
    (result : gmap string Z) (field : string) : gmap string Z :=
  if includes urlFields field then <[field := 1]> result
  else if includes urlFields ("-" ++ field) then <[field := 0]> result
  else result.

(** The body of the [_.forEach] callback of [_getQueryObjFromFieldsInUrl]. *)
Definition query_step (q : jsobj) (queryDb : jsobj) (field : string) : jsobj :=
  let fieldValue := js_get q field in
  match fieldValue with
  | JStr EmptyString | JUndefined => queryDb
  | _ => <[field := js_get q field]> queryDb
  end.

(** ** Joi schemas *)

Inductive JoiType : Type := JoiNumberT | JoiStringT.

#[global] Instance JoiType_eq_dec : EqDecision JoiType.
Proof. solve_decision. Defined.

(** A regular expression, by its source text. *)
Record Regex : Type := MkRegex { regex_source : string }.

#[global] Instance Regex_eq_dec : EqDecision Regex.
Proof. solve_decision. Defined.

(** What the builder calls used in the source put into a schema. *)
Record JoiSchema : Type := MkJoi {
  joi_type : JoiType;
  joi_integer : bool;
  joi_min : option Z;
  joi_max : option Z;
  joi_regex : option Regex;
  joi_default : option jsval;
  joi_description : option string
}.

#[global] Instance JoiSchema_eq_dec : EqDecision JoiSchema.
Proof. solve_decision. Defined.

Module Joi.

Definition number : JoiSchema :=
  MkJoi JoiNumberT false None None None None None.

Definition string : JoiSchema :=
  MkJoi JoiStringT false None None None None None.

Definition integer (s : JoiSchema) : JoiSchema :=
  MkJoi (joi_type s) true (joi_min s) (joi_max s) (joi_regex s)
        (joi_default s) (joi_description s).

Definition min (n : Z) (s : JoiSchema) : JoiSchema :=
  MkJoi (joi_type s) (joi_integer s) (Some n) (joi_max s) (joi_regex s)
        (joi_default s) (joi_description s).

Definition max (n : Z) (s : JoiSchema) : JoiSchema :=
  MkJoi (joi_type s) (joi_integer s) (joi_min s) (Some n) (joi_regex s)
        (joi_default s) (joi_description s).

Definition regex (r : Regex) (s : JoiSchema) : JoiSchema :=
  MkJoi (joi_type s) (joi_integer s) (joi_min s) (joi_max s) (Some r)
        (joi_default s) (joi_description s).

Definition default (v : jsval) (s : JoiSchema) : JoiSchema :=
  MkJoi (joi_type s) (joi_integer s) (joi_min s) (joi_max s) (joi_regex s)
        (Some v) (joi_description s).

Definition description (d : String.string) (s : JoiSchema) : JoiSchema :=
  MkJoi (joi_type s) (joi_integer s) (joi_min s) (joi_max s) (joi_regex s)
        (joi_default s) (Some d).

End Joi.

(** Method chains read left to right: [Joi.number() |> Joi.integer]. *)
Notation "x |> f" := (f x) (at level 45, left associativity, only parsing).

(** An object whose properties are schemas, as [validate.query] takes. *)
Abbreviation JoiKeys := (gmap string JoiSchema).

Definition _JoiLimit : JoiSchema :=
  Joi.number |> Joi.integer
    |> Joi.min 1 |> Joi.max 1000
    |> Joi.default (JNum 10)
    |> Joi.description "limit. min = 1, max = 1000".

Definition _JoiOffset : JoiSchema :=
  Joi.number |> Joi.integer
    |> Joi.min 0
    |> Joi.default (JNum 0)
    |> Joi.description "offset. min = 0".

Definition _JoiFields : JoiSchema :=
  let description :=
    "You can include or exclude fields in response. Fields should be separated by colon. " ++
    "To exclude field, just add in front of it -, for example: <code>-firstName,-lastname</code>" in
  Joi.string |> Joi.regex (MkRegex "^[a-zA-Z0-9_,]+$")
    |> Joi.default (JStr "")
    |> Joi.description description.

(** [_.assign(target, ...sources)]: every source in turn writes its
    properties over the target's. *)
Definition lodash_assign {V : Type} (target : gmap string V)
    (sources : list (gmap string V)) : gmap string V :=
  foldl (fun acc src => src ∪ acc) target sources.

(** The validator fills in the default of every declared key that the
    request leaves [undefined]; the handler reads the object so completed. *)
Definition joi_apply_defaults (keys : JoiKeys) (o : jsobj) : jsobj :=
  merge (fun (s : option JoiSchema) (v : option jsval) =>
           match v with
           | Some JUndefined | None => s ≫= joi_default
           | Some x => Some x
           end) keys o.

(** ** The store *)

Definition Doc : Type := jsobj.

(** The options object of [findByIdAndUpdate]. *)
Record UpdateOptions : Type := MkUpdateOptions { opt_new : bool }.

(** The store calls the handlers make, with the query builder's chained
    [select], [limit] and [skip] as arguments. *)
Inductive StoreCall : Type :=
  | Save (data : jsobj)
  | FindById (id : jsval) (select : gmap string Z)
  | FindByIdAndUpdate (id : jsval) (data : jsobj) (options : UpdateOptions)
  | Remove (conditions : jsobj)
  | Count (conditions : jsobj)
  | Find (conditions : jsobj) (select : gmap string Z) (limit skip : jsval).

Inductive StoreResult : Type :=
  | SDoc (d : option Doc)
  | SDocs (ds : list Doc)
  | SCount (n : Z)
  | SWriteResult (n : Z).

(** How the promise of a store call settles. *)
Inductive Outcome : Type :=
  | Resolved (v : StoreResult)
  | Rejected (e : JsError).

(** ** Handlers *)

(** What a handler passes to [reply]. *)
Inductive Replied : Type :=
  | Success (v : StoreResult)
  | Failure (e : JsError).

(** A handler body: [Await c onOk onErr] is [c.then(onOk).catch(onErr)],
    [Reply] and [LogError] are the calls of [reply] and [logger.error], which
    return normally. *)
Inductive Prog : Type :=
  | Done
  | Throw (e : JsError)
  | Reply (x : Replied) (k : Prog)
  | LogError (e : JsError) (k : Prog)
  | Await (c : StoreCall) (onOk : StoreResult -> Prog) (onErr : JsError -> Prog).

Inductive Event : Type :=
  | EvStore (c : StoreCall)
  | EvReply (x : Replied)
  | EvLog (e : JsError).

(** A handler body against a store that settles each call: the events in
    order, and the error the body ends with when it throws.  In
    [c.then(onOk).catch(onErr)] the [catch] also receives what [onOk]
    throws. *)
Fixpoint exec (store : StoreCall -> Outcome) (p : Prog)
    : list Event * option JsError :=
  match p with
  | Done => ([], None)
  | Throw e => ([], Some e)
  | Reply x k =>
      let '(t, r) := exec store k in (EvReply x :: t, r)
  | LogError e k =>
      let '(t, r) := exec store k in (EvLog e :: t, r)
  | Await c onOk onErr =>
      match store c with
      | Resolved v =>
          let '(t, r) := exec store (onOk v) in
          match r with
          | None => (EvStore c :: t, None)
          | Some e =>
              let '(t', r') := exec store (onErr e) in
              (EvStore c :: t ++ t', r')
          end
      | Rejected e =>
          let '(t, r) := exec store (onErr e) in (EvStore c :: t, r)
      end
  end.

(** The trace of a handler body. *)
Definition run (store : StoreCall -> Outcome) (p : Prog) : list Event :=
  fst (exec store p).

Definition is_reply (ev : Event) : bool :=
  match ev with EvReply _ => true | _ => false end.

Definition is_store (ev : Event) : bool :=
  match ev with EvStore _ => true | _ => false end.

(** [.then(reply)] *)
Definition then_reply (v : StoreResult) : Prog := Reply (Success v) Done.

(** [.catch((err) => { reply(err); logger.error(err) })] *)
Definition catch_reply_log (err : JsError) : Prog :=
  Reply (Failure err) (LogError err Done).

(** ** Routes *)

Record Validate : Type := MkValidate {
  v_params : option JoiKeys;
  v_query : option JoiKeys;
  v_payload : option JoiKeys
}.

Record Config : Type := MkConfig {
  description : string;
  tags : list string;
  validate : Validate
}.

Record Route : Type := MkRoute {
  path : string;
  method : string;
  handler : Request -> Prog;
  config : Config
}.

(** ** What the code reads from [lib/util] and from the model class *)

Class ModelEnv (Model : Type) : Type := {
  (** [util.getModelName(Model)] *)
  getModelName : Model -> string;
  (** [util.getAllModelFields(Model)] *)
  getAllModelFields : Model -> list string;
  (** [util.getSchemaModelFields(Model)] *)
  getSchemaModelFields : Model -> list string;
  (** [util.getMongoIdRegexp()] *)
  getMongoIdRegexp : Regex;
  (** [Model.joiValidate] *)
  joiValidate : Model -> JoiKeys
}.

Section Restify.

Context {Model : Type} `{ModelEnv Model}.

(** Calling [split] on a value that is not a string. *)
Definition split_type_error : JsError :=
  MkError "TypeError" "urlFieldsStr.split is not a function".

Definition _getSelectObjFromFieldsInUrl (M : Model) (request : Request)
    : Completion (gmap string Z) :=
  match lodash_get (query request) "fields" (JStr "") with
  | JStr urlFieldsStr =>
      let urlFields := urlFields urlFieldsStr in
      let result : gmap string Z := ∅ in
      if (length urlFields =? 0)%nat then Normal result
      else
        let modelFields := getAllModelFields M in
        Normal (foldl (select_step urlFields) result modelFields)
  | _ => Throws split_type_error
  end.

Definition _getQueryObjFromFieldsInUrl (M : Model) (request : Request)
    : jsobj :=
  let fields := getSchemaModelFields M in
  let queryDb : jsobj := ∅ in
  foldl (query_step (query request)) queryDb fields.

(** *** POST /modelname *)

Definition postHandler (M : Model) (request : Request) : Prog :=
  let data := payload request in
  Await (Save data) then_reply catch_reply_log.

Definition _postRoute (M : Model) : Route :=
  let modelName := getModelName M in
  {| path := "/" ++ modelName; method := "POST"; handler := postHandler M;
     config := {|
       description := "Create new " ++ modelName;
       tags := ["api"];
       validate := {| v_params := None; v_query := None;
                      v_payload := Some (joiValidate M) |} |} |}.

(** *** GET /modelname/{id} *)

Definition getHandler (M : Model) (request : Request) : Prog :=
  let id := js_get (params request) "id" in
  match _getSelectObjFromFieldsInUrl M request with
  | Throws e => Throw e
  | Normal select => Await (FindById id select) then_reply catch_reply_log
  end.

Definition _getRoute (M : Model) : Route :=
  let modelName := getModelName M in
  let idRegexp := getMongoIdRegexp in
  {| path := "/" ++ modelName ++ "/{id}"; method := "GET";
     handler := getHandler M;
     config := {|
       description := "Get " ++ modelName ++ " instance by id";
       tags := ["api"];
       validate := {|
         v_params := Some {[ "id" := Joi.string |> Joi.regex idRegexp ]};
         v_query := Some {[ "fields" := _JoiFields ]};
         v_payload := None |} |} |}.

(** *** PUT /modelname/{id} *)

Definition putHandler (M : Model) (request : Request) : Prog :=
  let id := js_get (params request) "id" in
  let data := payload request in
  let options := {| opt_new := true |} in
  Await (FindByIdAndUpdate id data options) then_reply catch_reply_log.

Definition _putRoute (M : Model) : Route :=
  let modelName := getModelName M in
  let idRegexp := getMongoIdRegexp in
  {| path := "/" ++ modelName ++ "/{id}"; method := "PUT";
     handler := putHandler M;
     config := {|
       description := "Update " ++ modelName ++ " instance by id";
       tags := ["api"];
       validate := {|
         v_params := Some {[ "id" := Joi.string |> Joi.regex idRegexp ]};
         v_query := None;
         v_payload := Some (joiValidate M) |} |} |}.

(** *** DELETE /modelname/{id} *)

Definition deleteHandler (M : Model) (request : Request) : Prog :=
  let id := js_get (params request) "id" in
  Await (Remove {[ "_id" := id ]}) then_reply catch_reply_log.

Definition _deleteRoute (M : Model) : Route :=
  let modelName := getModelName M in
  let idRegexp := getMongoIdRegexp in
  {| path := "/" ++ modelName ++ "/{id}"; method := "DELETE";
     handler := deleteHandler M;
     config := {|
       description := "Delete " ++ modelName ++ " instance by id";
       tags := ["api"];
       validate := {|
         v_params := Some {[ "id" := Joi.string |> Joi.regex idRegexp ]};
         v_query := None;
         v_payload := None |} |} |}.

(** *** GET /modelname/count *)

Definition countHandler (M : Model) (request : Request) : Prog :=
  let queryObj := _getQueryObjFromFieldsInUrl M request in
  Await (Count queryObj) then_reply catch_reply_log.

Definition _countRoute (M : Model) : Route :=
  let modelName := getModelName M in
  {| path := "/" ++ modelName ++ "/count"; method := "GET";
     handler := countHandler M;
     config := {|
       description := "Return count instances in " ++ modelName ++ " model";
       tags := ["api"];
       validate := {| v_params := None;
                      v_query := Some (joiValidate M);
                      v_payload := None |} |} |}.

(** *** GET /modelname/list *)

Definition listHandler (M : Model) (request : Request) : Prog :=
  let limit := js_get (query request) "limit" in
  let offset := js_get (query request) "offset" in
  match _getSelectObjFromFieldsInUrl M request with
  | Throws e => Throw e
  | Normal select =>
      Await (Find ∅ select limit offset) then_reply catch_reply_log
  end.

Definition _listRoute (M : Model) : Route :=
  let modelName := getModelName M in
  {| path := "/" ++ modelName ++ "/list"; method := "GET";
     handler := listHandler M;
     config := {|
       description := "Return list of " ++ modelName ++ " instances";
       tags := ["api"];
       validate := {|
         v_params := None;
         v_query := Some (<[ "limit" := _JoiLimit ]>
                         (<[ "offset" := _JoiOffset ]>
                         (<[ "fields" := _JoiFields ]> ∅)));
         v_payload := None |} |} |}.

(** *** GET /modelname/find *)

Definition findHandler (M : Model) (request : Request) : Prog :=
  let limit := js_get (query request) "limit" in
  let offset := js_get (query request) "offset" in
  let queryObj := _getQueryObjFromFieldsInUrl M request in
  match _getSelectObjFromFieldsInUrl M request with
  | Throws e => Throw e
  | Normal select =>
      Await (Find queryObj select limit offset) then_reply catch_reply_log
  end.

Definition _findRoute (M : Model) : Route :=
  let modelName := getModelName M in
  {| path := "/" ++ modelName ++ "/find"; method := "GET";
     handler := findHandler M;
     config := {|
       description := "Return list of " ++ modelName ++ " instances";
       tags := ["api"];
       validate := {|
         v_params := None;
         v_query := Some (lodash_assign ∅
                      [ joiValidate M;
                        <[ "limit" := _JoiLimit ]>
                        (<[ "offset" := _JoiOffset ]>
                        (<[ "fields" := _JoiFields ]> ∅)) ]);
         v_payload := None |} |} |}.

(** *** The routes of a model *)

Definition restify (M : Model) : list Route :=
  [ _postRoute M;
    _getRoute M;
    _putRoute M;
    _deleteRoute M;
    _countRoute M;
    _listRoute M;
    _findRoute M ].

End Restify.

(** ** The contract of the store's update by key

    The document store is an external collaborator.  [findByIdAndUpdate]
    below is its documented contract for one collection: a payload without
    update operators is written over the stored document field by field,
    and the [new] option chooses which state of the document the promise
    resolves with ([false], the default, is the state before the update). *)

Module StoreContract.

Abbreviation Collection := (gmap string Doc).

Definition cast_error : JsError :=
  MkError "CastError" "Cast to ObjectId failed".

Definition unsupported : JsError :=
  MkError "Error" "operation outside the update contract".

Definition findByIdAndUpdate (id : jsval) (data : jsobj)
    (options : UpdateOptions) (coll : Collection) : Outcome * Collection :=
  match id with
  | JStr i =>
      match coll !! i with
      | None => (Resolved (SDoc None), coll)
      | Some d =>
          let d' := data ∪ d in
          (Resolved (SDoc (Some (if opt_new options then d' else d))),
           <[ i := d' ]> coll)
      end
  | _ => (Rejected cast_error, coll)
  end.

(** A store holding [coll] that answers update calls. *)
Definition settle (coll : Collection) (c : StoreCall) : Outcome :=
  match c with
  | FindByIdAndUpdate id data options =>
      fst (findByIdAndUpdate id data options coll)
  | _ => Rejected unsupported
  end.

(** The collection once the call has run. *)
Definition after (coll : Collection) (c : StoreCall) : Collection :=
  match c with
  | FindByIdAndUpdate id data options =>
      snd (findByIdAndUpdate id data options coll)
  | _ => coll
  end.

End StoreContract.

(** ** The contract of the validator

    Joi runs before the handler.  [joi_check] is its verdict on one value,
    already converted to the type of the schema, for the schema features the
    source uses: a string must be non-empty and match the pattern, a number
    must lie within the bounds.  Matching a regular expression is left to
    [test]. *)

Definition joi_check (test : Regex -> string -> bool)
    (s : JoiSchema) (v : jsval) : bool :=
  match joi_type s, v with
  | JoiStringT, JStr x =>
      truthy_str x
      && match joi_regex s with
         | Some r => test r x
         | None => true
         end
  | JoiNumberT, JNum n =>
      match joi_min s with Some lo => lo <=? n | None => true end
      && match joi_max s with Some hi => n <=? hi | None => true end
  | _, _ => false
  end.

(** ** A concrete model: the widget of the specification's scenarios *)

Inductive WidgetModel : Type := Widget.

#[global] Instance widget_env : ModelEnv WidgetModel := {|
  getModelName := fun _ => "widget";
  getAllModelFields := fun _ => ["title"; "price"];
  getSchemaModelFields := fun _ => ["title"; "price"];
  getMongoIdRegexp := MkRegex "^[0-9a-fA-F]{24}$";
  joiValidate := fun _ =>
    <[ "title" := Joi.string ]> (<[ "price" := Joi.number ]> ∅)
|}.

(** A model whose payload schema declares the names of the pagination and
    projection parameters. *)
Inductive ClashModel : Type := Clash.

#[global] Instance clash_env : ModelEnv ClashModel := {|
  getModelName := fun _ => "clash";
  getAllModelFields := fun _ => ["limit"; "offset"; "fields"];
  getSchemaModelFields := fun _ => ["limit"; "offset"; "fields"];
  getMongoIdRegexp := MkRegex "^[0-9a-fA-F]{24}$";
  joiValidate := fun _ =>
    <[ "limit" := Joi.string ]>
    (<[ "offset" := Joi.string ]>
    (<[ "fields" := Joi.number ]> ∅))
|}.

(** A request that carries only a query string. *)
Definition query_request (q : jsobj) : Request :=
  {| params := ∅; query := q; payload := ∅ |}.

(** The projection as the specification words it, for a declared field
    list [F], the tokens [toks] and a result [m]: the keys of [m] are the
    declared fields named by a token, a bare token [f] gives [f] the flag 1
    and a token [-f] gives [f] the flag 0. *)
Definition projection_as_claimed (F toks : list string)
    (m : gmap string Z) : Prop :=
  forall f,
    (is_Some (m !! f) <-> f ∈ F /\ (f ∈ toks \/ ("-" ++ f) ∈ toks)) /\
    (f ∈ F -> f ∈ toks -> m !! f = Some 1) /\
    (f ∈ F -> ("-" ++ f) ∈ toks -> m !! f = Some 0).

(** ** The pattern of the [fields] parameter

    [_JoiFields] validates the parameter against [/^[a-zA-Z0-9_,]+$/]: one
    or more characters, each a letter, a digit, an underscore or a comma. *)

(** Every character of the string satisfies [p]. *)
Fixpoint all_chars (p : ascii -> bool) (s : string) : bool :=
  match s with
  | EmptyString => true
  | String c s' => p c && all_chars p s'
  end.

(** A character range [lo-hi] of a character class. *)
Definition in_range (lo hi c : ascii) : bool :=
  (N_of_ascii lo <=? N_of_ascii c)%N && (N_of_ascii c <=? N_of_ascii hi)%N.

(** The class [[a-zA-Z0-9_,]]. *)
Definition fields_class (c : ascii) : bool :=
  in_range "a" "z" c || in_range "A" "Z" c || in_range "0" "9" c
  || bool_decide (c = "_"%char) || bool_decide (c = ","%char).

(** [/^[a-zA-Z0-9_,]+$/.test(s)] *)
Definition fields_pattern (s : string) : bool :=
  truthy_str s && all_chars fields_class s.

(** * Properties *)

(** Closed decidable facts (membership in a literal list and the like) are
    settled by evaluating their decision procedure. *)
Ltac decide_by_compute :=
  apply (bool_decide_unpack _); vm_compute; exact I.

(** ** Splitting and tokens *)

Lemma split_nonempty sep s : split sep s <> [].
Proof.
  destruct s as [|c s]; simpl; [done|].
  destruct (decide (c = sep)); [done|].
  destruct (split sep s); done.
Qed.

Lemma join_cons_char sep c t ts :
  join sep (String c t :: ts) = String c (join sep (t :: ts)).
Proof. destruct ts; reflexivity. Qed.

(** Joining the pieces with the separator gives the string back. *)
Lemma join_split sep s : join sep (split sep s) = s.
Proof.
  induction s as [|c s IH]; simpl; [reflexivity|].
  destruct (decide (c = sep)) as [->|Hne].
  - pose proof (split_nonempty sep s) as Hs.
    destruct (split sep s) as [|t ts]; [done|].
    simpl in *. by rewrite IH.
  - pose proof (split_nonempty sep s) as Hs.
    destruct (split sep s) as [|t ts]; [done|].
    rewrite join_cons_char. by rewrite IH.
Qed.

(** No piece contains the separator. *)
Lemma split_no_sep sep s : Forall (fun t => occurs sep t = false) (split sep s).
Proof.
  induction s as [|c s IH]; simpl.
  - by constructor.
  - destruct (decide (c = sep)) as [->|Hne].
    + by constructor.
    + destruct (split sep s) as [|t ts]; simpl.
      * constructor; [|done]. simpl. by rewrite bool_decide_eq_false_2.
      * inversion IH; subst. constructor; [|done].
        simpl. by rewrite bool_decide_eq_false_2.
Qed.

(** The tokens are the non-empty pieces between the commas. *)
Lemma elem_of_urlFields t s :
  t ∈ urlFields s <-> t ∈ split "," s /\ t <> "".
Proof.
  unfold urlFields. rewrite !list_elem_of_In, filter_In.
  destruct t; simpl; split; intros [? ?]; done.
Qed.

Lemma includes_true xs x : includes xs x = true <-> x ∈ xs.
Proof. unfold includes. apply bool_decide_eq_true. Qed.

Lemma includes_false xs x : includes xs x = false <-> x ∉ xs.
Proof. unfold includes. apply bool_decide_eq_false. Qed.

(** ** The two loops over the model's fields *)

Lemma select_step_lookup toks (acc : gmap string Z) a k :
  select_step toks acc a !! k =
    if decide (a = k) then
      if includes toks k then Some 1
      else if includes toks ("-" ++ k) then Some 0
      else acc !! k
    else acc !! k.
Proof.
  unfold select_step. destruct (decide (a = k)) as [->|Hne].
  - destruct (includes toks k); [by rewrite lookup_insert_eq|].
    destruct (includes toks ("-" ++ k)); [by rewrite lookup_insert_eq|done].
  - destruct (includes toks a); [by rewrite lookup_insert_ne|].
    destruct (includes toks ("-" ++ a)); [by rewrite lookup_insert_ne|done].
Qed.

Lemma select_fold_lookup toks F : forall (acc : gmap string Z) k,
  foldl (select_step toks) acc F !! k =
    if decide (k ∈ F) then
      if includes toks k then Some 1
      else if includes toks ("-" ++ k) then Some 0
      else acc !! k
    else acc !! k.
Proof.
  induction F as [|a F IH]; intros acc k; simpl.
  - destruct (decide (k ∈ [])) as [Hin|_]; [by apply elem_of_nil in Hin|done].
  - rewrite IH, select_step_lookup.
    destruct (decide (k ∈ F)) as [HF|HF].
    + rewrite (decide_True (P := k ∈ a :: F)) by (apply elem_of_cons; by right).
      destruct (includes toks k); [done|].
      destruct (includes toks ("-" ++ k)); [done|].
      by destruct (decide (a = k)).
    + destruct (decide (a = k)) as [->|Hne].
      * by rewrite (decide_True (P := k ∈ k :: F)) by (apply elem_of_cons; by left).
      * rewrite (decide_False (P := k ∈ a :: F)); [done|].
        intros [->|?]%elem_of_cons; done.
Qed.

Lemma query_step_lookup q (acc : jsobj) a k :
  query_step q acc a !! k =
    if decide (a = k) then
      match js_get q k with
      | JUndefined | JStr EmptyString => acc !! k
      | v => Some v
      end
    else acc !! k.
Proof.
  unfold query_step. destruct (decide (a = k)) as [->|Hne].
  - destruct (js_get q k) as [| |b|n|[|c s]];
      first [done | by rewrite lookup_insert_eq].
  - destruct (js_get q a) as [| |b|n|[|c s]];
      first [done | by rewrite lookup_insert_ne].
Qed.

Lemma query_fold_lookup q F : forall (acc : jsobj) k,
  foldl (query_step q) acc F !! k =
    if decide (k ∈ F) then
      match js_get q k with
      | JUndefined | JStr EmptyString => acc !! k
      | v => Some v
      end
    else acc !! k.
Proof.
  induction F as [|a F IH]; intros acc k; simpl.
  - destruct (decide (k ∈ [])) as [Hin|_]; [by apply elem_of_nil in Hin|done].
  - rewrite IH, query_step_lookup.
    destruct (decide (k ∈ F)) as [HF|HF].
    + rewrite (decide_True (P := k ∈ a :: F)) by (apply elem_of_cons; by right).
      destruct (decide (a = k)); [|done].
      by destruct (js_get q k) as [| |b|n|[|c s]].
    + destruct (decide (a = k)) as [->|Hne].
      * by rewrite (decide_True (P := k ∈ k :: F)) by (apply elem_of_cons; by left).
      * rewrite (decide_False (P := k ∈ a :: F)); [done|].
        intros [->|?]%elem_of_cons; done.
Qed.

Section RestifyFacts.

Context {Model : Type} `{ModelEnv Model}.

(** A [fields] parameter that is absent reads as the empty string. *)
Lemma fields_param_string (request : Request) s :
  js_get (query request) "fields" = JStr s ->
  lodash_get (query request) "fields" (JStr "") = JStr s.
Proof. unfold lodash_get. by intros ->. Qed.

(** With a string for [fields] the projection is computed, and each of its
    entries is decided by the tokens and the model's fields. *)
Lemma select_lookup (M : Model) (request : Request) s :
  lodash_get (query request) "fields" (JStr "") = JStr s ->
  exists m, _getSelectObjFromFieldsInUrl M request = Normal m /\
    forall k, m !! k =
      if decide (k ∈ getAllModelFields M) then
        if includes (urlFields s) k then Some 1
        else if includes (urlFields s) ("-" ++ k) then Some 0
        else None
      else None.
Proof.
  intros Hs. unfold _getSelectObjFromFieldsInUrl. rewrite Hs.
  destruct (urlFields s) as [|t ts] eqn:Htoks; simpl.
  - exists ∅. split; [done|]. intros k. rewrite lookup_empty.
    by destruct (decide _).
  - eexists. split; [done|]. intros k.
    rewrite select_fold_lookup, lookup_empty. done.
Qed.

(** A [fields] parameter that is neither absent nor a string makes the
    function throw. *)
Lemma select_throws (M : Model) (request : Request) :
  (forall s, lodash_get (query request) "fields" (JStr "") <> JStr s) ->
  _getSelectObjFromFieldsInUrl M request = Throws split_type_error.
Proof.
  intros Hs. unfold _getSelectObjFromFieldsInUrl.
  destruct (lodash_get (query request) "fields" (JStr "")); try done.
  by destruct (Hs s).
Qed.

Lemma query_lookup (M : Model) (request : Request) k :
  _getQueryObjFromFieldsInUrl M request !! k =
    if decide (k ∈ getSchemaModelFields M) then
      match js_get (query request) k with
      | JUndefined | JStr EmptyString => None
      | v => Some v
      end
    else None.
Proof.
  unfold _getQueryObjFromFieldsInUrl.
  rewrite query_fold_lookup, lookup_empty. done.
Qed.

End RestifyFacts.

(** ** The projection object *)

Section Projection.

Context {Model : Type} `{ModelEnv Model}.

(** C1 (amended): for every declared field list and every [fields] query
    string, the projection object has exactly the declared fields that a
    token names, bare or with the [-] prefix; a bare token [f] gives [f]
    the flag 1, and a token [-f] gives [f] the flag 0 when the bare token
    [f] is not among the tokens as well.  Tokens that name no declared
    field leave no entry. *)
Theorem select_obj_entries (M : Model) (request : Request) (s : string) :
  js_get (query request) "fields" = JStr s ->
  exists m, _getSelectObjFromFieldsInUrl M request = Normal m /\
    forall f,
      (is_Some (m !! f) <->
         f ∈ getAllModelFields M /\
         (f ∈ urlFields s \/ ("-" ++ f) ∈ urlFields s)) /\
      (f ∈ getAllModelFields M -> f ∈ urlFields s -> m !! f = Some 1) /\
      (f ∈ getAllModelFields M -> ("-" ++ f) ∈ urlFields s ->
         f ∉ urlFields s -> m !! f = Some 0).
Proof.
  intros Hs%fields_param_string.
  destruct (select_lookup M request s Hs) as (m & Hm & Hlk).
  exists m. split; [exact Hm|]. intros f. rewrite Hlk.
  destruct (decide (f ∈ getAllModelFields M)) as [HF|HF].
  - destruct (includes (urlFields s) f) eqn:Hinc;
      [apply includes_true in Hinc | apply includes_false in Hinc].
    { split; [|done]. split; [intros _; auto | by eexists]. }
    destruct (includes (urlFields s) ("-" ++ f)) eqn:Hexc;
      [apply includes_true in Hexc | apply includes_false in Hexc].
    { split; [|done]. split; [intros _; auto | by eexists]. }
    split; [|done]. split.
    + by intros [? ?].
    + intros [_ [?|?]]; done.
  - split; [|done]. split.
    + by intros [? ?].
    + by intros [? _].
Qed.

(** C9: when the tokens hold both [f] and [-f] for a declared field [f],
    the projection gives [f] the flag 1. *)
Theorem select_obj_include_wins (M : Model) (request : Request)
    (s f : string) :
  js_get (query request) "fields" = JStr s ->
  f ∈ getAllModelFields M ->
  f ∈ urlFields s ->
  ("-" ++ f) ∈ urlFields s ->
  exists m, _getSelectObjFromFieldsInUrl M request = Normal m /\
            m !! f = Some 1.
Proof.
  intros Hs%fields_param_string HF Hinc _.
  destruct (select_lookup M request s Hs) as (m & Hm & Hlk).
  exists m. split; [exact Hm|]. rewrite Hlk.
  rewrite decide_True by done.
  by rewrite (proj2 (includes_true _ _) Hinc).
Qed.

End Projection.

Lemma select_obj_entries_witness :
  let request := query_request {[ "fields" := JStr "title,-price,bogus" ]} in
  js_get (query request) "fields" = JStr "title,-price,bogus" /\
  exists m, _getSelectObjFromFieldsInUrl Widget request = Normal m /\
    forall f,
      (is_Some (m !! f) <->
         f ∈ getAllModelFields Widget /\
         (f ∈ urlFields "title,-price,bogus" \/
          ("-" ++ f) ∈ urlFields "title,-price,bogus")) /\
      (f ∈ getAllModelFields Widget -> f ∈ urlFields "title,-price,bogus" ->
         m !! f = Some 1) /\
      (f ∈ getAllModelFields Widget ->
         ("-" ++ f) ∈ urlFields "title,-price,bogus" ->
         f ∉ urlFields "title,-price,bogus" -> m !! f = Some 0).
Proof.
  split; [reflexivity|].
  apply (select_obj_entries Widget
           (query_request {[ "fields" := JStr "title,-price,bogus" ]})
           "title,-price,bogus").
  reflexivity.
Defined.

(** With the tokens [title] and [-title] the flag of [title] is 1, which the
    wording of the specification excludes. *)
Lemma select_obj_both_tokens_counterexample :
  exists m,
    _getSelectObjFromFieldsInUrl Widget
      (query_request {[ "fields" := JStr "title,-title" ]}) = Normal m /\
    m !! "title" = Some 1 /\
    ~ projection_as_claimed (getAllModelFields Widget)
        (urlFields "title,-title") m.
Proof.
  eexists. split; [reflexivity|]. split; [reflexivity|].
  intros Hclaim. destruct (Hclaim "title") as (_ & _ & Hzero).
  assert (Hone : foldl (select_step (urlFields "title,-title")) ∅
                   (getAllModelFields Widget) !! "title" = Some 0).
  { apply Hzero; decide_by_compute. }
  vm_compute in Hone. discriminate Hone.
Qed.

Lemma select_obj_include_wins_witness :
  let request := query_request {[ "fields" := JStr "title,-title" ]} in
  js_get (query request) "fields" = JStr "title,-title" /\
  "title" ∈ getAllModelFields Widget /\
  "title" ∈ urlFields "title,-title" /\
  ("-" ++ "title") ∈ urlFields "title,-title" /\
  exists m, _getSelectObjFromFieldsInUrl Widget request = Normal m /\
            m !! "title" = Some 1.
Proof.
  assert (H1 : "title" ∈ getAllModelFields Widget)
    by (decide_by_compute).
  assert (H2 : "title" ∈ urlFields "title,-title")
    by (decide_by_compute).
  assert (H3 : ("-" ++ "title") ∈ urlFields "title,-title")
    by (decide_by_compute).
  repeat (split; [first [reflexivity | assumption]|]).
  exact (select_obj_include_wins Widget
           (query_request {[ "fields" := JStr "title,-title" ]})
           "title,-title" "title" eq_refl H1 H2 H3).
Defined.

(** The scenario of the specification:
    fields [title, price] and the parameter [title,-price]. *)
Example select_obj_scenario :
  _getSelectObjFromFieldsInUrl Widget
    (query_request {[ "fields" := JStr "title,-price" ]})
  = Normal (<[ "title" := 1 ]> (<[ "price" := 0 ]> ∅)).
Proof. vm_compute. reflexivity. Qed.

(** An empty or absent parameter gives the empty projection. *)
Example select_obj_empty :
  _getSelectObjFromFieldsInUrl Widget (query_request ∅) = Normal ∅ /\
  _getSelectObjFromFieldsInUrl Widget
    (query_request {[ "fields" := JStr "" ]}) = Normal ∅.
Proof. split; reflexivity. Qed.

(** A parameter that is not a string makes the function throw. *)
Example select_obj_number :
  _getSelectObjFromFieldsInUrl Widget
    (query_request {[ "fields" := JNum 5 ]}) = Throws split_type_error.
Proof. reflexivity. Qed.

(** ** The filter object *)

Section Filter.

Context {Model : Type} `{ModelEnv Model}.

(** C2: the filter object has the key [k] exactly when [k] is a declared
    field and the query holds a value for [k] that is not the empty
    string; the value stored is the query's value, unchanged. *)
Theorem query_obj_entries (M : Model) (request : Request) (k : string) :
  (is_Some (_getQueryObjFromFieldsInUrl M request !! k) <->
     k ∈ getSchemaModelFields M /\
     js_get (query request) k <> JUndefined /\
     js_get (query request) k <> JStr "") /\
  (forall v, _getQueryObjFromFieldsInUrl M request !! k = Some v ->
             v = js_get (query request) k).
Proof.
  rewrite query_lookup.
  destruct (decide (k ∈ getSchemaModelFields M)) as [HF|HF].
  - destruct (js_get (query request) k) as [| |b|n|[|c s]]; split;
      try (split; [by intros [? ?] | by intros (_ & ? & ?)]);
      try (split; [done | by eexists]);
      intros v; congruence.
  - split; [|done]. split; [by intros [? ?] | by intros (? & _)].
Qed.

(** C8: the keys of the projection object are fields of the model, and so
    are the keys of the filter object; with a string (or nothing) for
    [fields] both objects are built without an error, whatever other
    tokens and query parameters the request carries. *)
Theorem select_query_keys_declared (M : Model) (request : Request)
    (s : string) :
  lodash_get (query request) "fields" (JStr "") = JStr s ->
  exists m, _getSelectObjFromFieldsInUrl M request = Normal m /\
    (forall k, is_Some (m !! k) -> k ∈ getAllModelFields M) /\
    (forall k, is_Some (_getQueryObjFromFieldsInUrl M request !! k) ->
               k ∈ getSchemaModelFields M).
Proof.
  intros Hs. destruct (select_lookup M request s Hs) as (m & Hm & Hlk).
  exists m. split; [exact Hm|]. split; intros k.
  - rewrite Hlk. destruct (decide (k ∈ getAllModelFields M)); [done|].
    by intros [? ?].
  - rewrite query_lookup.
    destruct (decide (k ∈ getSchemaModelFields M)); [done|].
    by intros [? ?].
Qed.

End Filter.

Lemma select_query_keys_declared_witness :
  let request :=
    query_request (<[ "fields" := JStr "title,-bogus,other" ]>
                   (<[ "title" := JStr "Lamp" ]>
                   (<[ "colour" := JStr "red" ]> ∅))) in
  lodash_get (query request) "fields" (JStr "") = JStr "title,-bogus,other" /\
  exists m, _getSelectObjFromFieldsInUrl Widget request = Normal m /\
    (forall k, is_Some (m !! k) -> k ∈ getAllModelFields Widget) /\
    (forall k, is_Some (_getQueryObjFromFieldsInUrl Widget request !! k) ->
               k ∈ getSchemaModelFields Widget).
Proof.
  split; [reflexivity|].
  apply (select_query_keys_declared Widget
           (query_request (<[ "fields" := JStr "title,-bogus,other" ]>
                          (<[ "title" := JStr "Lamp" ]>
                          (<[ "colour" := JStr "red" ]> ∅))))
           "title,-bogus,other").
  reflexivity.
Defined.

(** The scenario of the specification: the query [title=Lamp&price=] over
    the fields [title, price]. *)
Example query_obj_scenario :
  _getQueryObjFromFieldsInUrl Widget
    (query_request (<[ "title" := JStr "Lamp" ]>
                   (<[ "price" := JStr "" ]> ∅)))
  = {[ "title" := JStr "Lamp" ]}.
Proof. vm_compute. reflexivity. Qed.

(** Values pass through as they are: a number stays a number. *)
Example query_obj_number :
  _getQueryObjFromFieldsInUrl Widget
    (query_request (<[ "price" := JNum 5 ]> (<[ "colour" := JStr "red" ]> ∅)))
  = {[ "price" := JNum 5 ]}.
Proof. vm_compute. reflexivity. Qed.

(** ** The routes and their validation *)

Section Routes.

Context {Model : Type} `{ModelEnv Model}.

(** C3: [restify] returns seven routes, in the order POST /name,
    GET /name/{id}, PUT /name/{id}, DELETE /name/{id}, GET /name/count,
    GET /name/list, GET /name/find. *)
Theorem restify_routes (M : Model) :
  length (restify M) = 7%nat /\
  map (fun r => (method r, path r)) (restify M) =
    [ ("POST", "/" ++ getModelName M);
      ("GET", "/" ++ getModelName M ++ "/{id}");
      ("PUT", "/" ++ getModelName M ++ "/{id}");
      ("DELETE", "/" ++ getModelName M ++ "/{id}");
      ("GET", "/" ++ getModelName M ++ "/count");
      ("GET", "/" ++ getModelName M ++ "/list");
      ("GET", "/" ++ getModelName M ++ "/find") ].
Proof. split; reflexivity. Qed.

(** C4: the schema that the GET /name/{id} route puts on the path
    parameter [id] is a string schema whose pattern is the identifier
    pattern of the environment and nothing else; the validator's verdict
    on an [id] is the pattern's verdict. *)
Theorem get_route_id_schema (M : Model) :
  restify M !! 1%nat = Some (_getRoute M) /\
  method (_getRoute M) = "GET" /\
  path (_getRoute M) = "/" ++ getModelName M ++ "/{id}" /\
  v_params (validate (config (_getRoute M))) =
    Some {[ "id" := Joi.string |> Joi.regex getMongoIdRegexp ]} /\
  (v_params (validate (config (_getRoute M))) ≫= (.!! "id")) =
    Some (MkJoi JoiStringT false None None (Some getMongoIdRegexp)
            None None) /\
  forall test id,
    joi_check test (Joi.string |> Joi.regex getMongoIdRegexp) (JStr id) =
    truthy_str id && test getMongoIdRegexp id.
Proof.
  split; [reflexivity|]. split; [reflexivity|]. split; [reflexivity|].
  split; [reflexivity|]. split; [reflexivity|].
  intros test id. reflexivity.
Qed.

(** The query schema of the list route, key by key. *)
Lemma list_route_query (M : Model) :
  exists q, v_query (validate (config (_listRoute M))) = Some q /\
    q !! "limit" = Some _JoiLimit /\
    q !! "offset" = Some _JoiOffset /\
    q !! "fields" = Some _JoiFields.
Proof. eexists. split; [reflexivity|]. repeat split. Qed.

(** The query schema of the find route: the pagination and projection
    schemas written over the model's schema. *)
Lemma find_route_query (M : Model) :
  v_query (validate (config (_findRoute M))) =
    Some ((<[ "limit" := _JoiLimit ]>
           (<[ "offset" := _JoiOffset ]>
           (<[ "fields" := _JoiFields ]> ∅))) ∪ joiValidate M).
Proof.
  simpl. unfold lodash_assign. simpl.
  by rewrite (right_id_L ∅ (∪)).
Qed.

End Routes.

(** ** Pagination parameters *)

Lemma joi_apply_defaults_lookup (keys : JoiKeys) (o : jsobj) k :
  joi_apply_defaults keys o !! k =
    match o !! k with
    | Some JUndefined | None => keys !! k ≫= joi_default
    | Some x => Some x
    end.
Proof.
  unfold joi_apply_defaults. rewrite lookup_merge.
  destruct (keys !! k) as [sc|], (o !! k) as [[]|]; reflexivity.
Qed.

(** A key the request leaves out reads as the default of its schema. *)
Lemma joi_default_effective (keys : JoiKeys) (o : jsobj) k sc v :
  keys !! k = Some sc -> joi_default sc = Some v -> o !! k = None ->
  js_get (joi_apply_defaults keys o) k = v.
Proof.
  intros Hk Hd Ho. unfold js_get.
  rewrite joi_apply_defaults_lookup, Ho, Hk. simpl. by rewrite Hd.
Qed.

Section Pagination.

Context {Model : Type} `{ModelEnv Model}.

(** The query schema of the find route at the three shared names. *)
Lemma find_route_query_shared (M : Model) :
  exists q, v_query (validate (config (_findRoute M))) = Some q /\
    q !! "limit" = Some _JoiLimit /\
    q !! "offset" = Some _JoiOffset /\
    q !! "fields" = Some _JoiFields.
Proof.
  eexists. split; [apply find_route_query|].
  repeat split; by apply lookup_union_Some_l.
Qed.

(** C10: in the query schema of the find route the keys [limit], [offset]
    and [fields] carry the pagination and projection schemas, whatever the
    model's own schema declares under these names. *)
Theorem find_route_pagination_keys (M : Model) :
  exists q, v_query (validate (config (_findRoute M))) = Some q /\
    q = lodash_assign ∅
          [ joiValidate M;
            <[ "limit" := _JoiLimit ]>
            (<[ "offset" := _JoiOffset ]>
            (<[ "fields" := _JoiFields ]> ∅)) ] /\
    q !! "limit" = Some _JoiLimit /\
    q !! "offset" = Some _JoiOffset /\
    q !! "fields" = Some _JoiFields.
Proof.
  destruct (find_route_query_shared M) as (q & Hq & Hl & Ho & Hf).
  exists q. split; [exact Hq|]. split; [|by repeat split].
  simpl in Hq. by injection Hq as <-.
Qed.

(** Every other key of the find route's query schema is the model's. *)
Lemma find_route_model_keys (M : Model) k :
  k <> "limit" -> k <> "offset" -> k <> "fields" ->
  exists q, v_query (validate (config (_findRoute M))) = Some q /\
            q !! k = joiValidate M !! k.
Proof.
  intros Hl Ho Hf. eexists. split; [apply find_route_query|].
  apply lookup_union_r.
  by rewrite !lookup_insert_ne, lookup_empty.
Qed.

(** C5: [limit] is an integer with minimum 1, maximum 1000 and default 10,
    [offset] is an integer with minimum 0, no maximum and default 0; the
    list and find routes put these schemas on their query, so that a query
    without the two parameters reaches the handler with limit 10 and
    offset 0. *)
Theorem pagination_schemas (M : Model) (q : jsobj) :
  (joi_type _JoiLimit = JoiNumberT /\ joi_integer _JoiLimit = true /\
   joi_min _JoiLimit = Some 1 /\ joi_max _JoiLimit = Some 1000 /\
   joi_default _JoiLimit = Some (JNum 10)) /\
  (joi_type _JoiOffset = JoiNumberT /\ joi_integer _JoiOffset = true /\
   joi_min _JoiOffset = Some 0 /\ joi_max _JoiOffset = None /\
   joi_default _JoiOffset = Some (JNum 0)) /\
  (forall test n,
     joi_check test _JoiLimit (JNum n) = (1 <=? n) && (n <=? 1000) /\
     joi_check test _JoiOffset (JNum n) = (0 <=? n)) /\
  (exists keys, v_query (validate (config (_listRoute M))) = Some keys /\
     keys !! "limit" = Some _JoiLimit /\
     keys !! "offset" = Some _JoiOffset /\
     let q' := joi_apply_defaults keys
                 (delete "limit" (delete "offset" q)) in
     js_get q' "limit" = JNum 10 /\ js_get q' "offset" = JNum 0) /\
  (exists keys, v_query (validate (config (_findRoute M))) = Some keys /\
     keys !! "limit" = Some _JoiLimit /\
     keys !! "offset" = Some _JoiOffset /\
     let q' := joi_apply_defaults keys
                 (delete "limit" (delete "offset" q)) in
     js_get q' "limit" = JNum 10 /\ js_get q' "offset" = JNum 0).
Proof.
  assert (Hlim : delete "limit" (delete "offset" q) !! "limit" = None)
    by apply lookup_delete_eq.
  assert (Hoff : delete "limit" (delete "offset" q) !! "offset" = None).
  { rewrite lookup_delete_ne by done. apply lookup_delete_eq. }
  split; [by repeat split|]. split; [by repeat split|].
  split; [intros test n; split; [reflexivity | apply andb_true_r]|]. split.
  - destruct (list_route_query M) as (keys & Hk & Hl & Ho & _).
    exists keys. split; [exact Hk|]. split; [exact Hl|].
    split; [exact Ho|]. split.
    + by apply (joi_default_effective keys _ "limit" _JoiLimit).
    + by apply (joi_default_effective keys _ "offset" _JoiOffset).
  - destruct (find_route_query_shared M) as (keys & Hk & Hl & Ho & _).
    exists keys. split; [exact Hk|]. split; [exact Hl|].
    split; [exact Ho|]. split.
    + by apply (joi_default_effective keys _ "limit" _JoiLimit).
    + by apply (joi_default_effective keys _ "offset" _JoiOffset).
Qed.

End Pagination.

(** A model that declares [limit], [offset] and [fields] itself: the find
    route validates them as pagination and projection parameters, not with
    the model's schemas. *)
Example find_route_clash :
  joiValidate Clash !! "limit" = Some Joi.string /\
  joiValidate Clash !! "offset" = Some Joi.string /\
  joiValidate Clash !! "fields" = Some Joi.number /\
  (v_query (validate (config (_findRoute Clash))) ≫= (.!! "limit"))
    = Some _JoiLimit /\
  (v_query (validate (config (_findRoute Clash))) ≫= (.!! "offset"))
    = Some _JoiOffset /\
  (v_query (validate (config (_findRoute Clash))) ≫= (.!! "fields"))
    = Some _JoiFields.
Proof. repeat split; vm_compute; reflexivity. Qed.

(** ** The store's update contract *)

Lemma after_update_lookup (coll : StoreContract.Collection) (i : string)
    (data : jsobj) (options : UpdateOptions) :
  StoreContract.after coll (FindByIdAndUpdate (JStr i) data options) !! i =
    (fun d => data ∪ d) <$> coll !! i.
Proof.
  unfold StoreContract.after, StoreContract.findByIdAndUpdate.
  destruct (coll !! i) as [d|] eqn:Hd; cbn [snd fmap option_fmap option_map].
  - apply lookup_insert_eq.
  - exact Hd.
Qed.

(** With the option set the promise resolves with the record as the
    collection holds it after the call. *)
Lemma update_with_new_is_after (coll : StoreContract.Collection)
    (i : string) (data : jsobj) :
  StoreContract.settle coll
    (FindByIdAndUpdate (JStr i) data {| opt_new := true |})
  = Resolved (SDoc (StoreContract.after coll
                      (FindByIdAndUpdate (JStr i) data {| opt_new := true |})
                    !! i)).
Proof.
  rewrite after_update_lookup.
  unfold StoreContract.settle, StoreContract.findByIdAndUpdate.
  by destruct (coll !! i) as [d|].
Qed.

(** ** The handlers *)

Section Handlers.

Context {Model : Type} `{ModelEnv Model}.

(** The trace of the chain every handler ends with:
    [call.then(reply).catch(err => { reply(err); logger.error(err) })]. *)
Lemma run_chain store call :
  run store (Await call then_reply catch_reply_log) =
    EvStore call ::
    match store call with
    | Resolved v => [EvReply (Success v)]
    | Rejected e => [EvReply (Failure e); EvLog e]
    end.
Proof. unfold run. simpl. by destruct (store call). Qed.

(** With a string (or nothing) for [fields], each of the seven handlers is
    that chain around one store call. *)
Lemma handler_is_chain (M : Model) (r : Route) (request : Request) s :
  r ∈ restify M ->
  lodash_get (query request) "fields" (JStr "") = JStr s ->
  exists call, handler r request = Await call then_reply catch_reply_log.
Proof.
  intros Hr Hs.
  destruct (select_lookup M request s Hs) as (m & Hm & _).
  unfold restify in Hr.
  repeat (apply elem_of_cons in Hr as [->|Hr]); simpl.
  - by eexists.
  - unfold getHandler. rewrite Hm. by eexists.
  - by eexists.
  - by eexists.
  - by eexists.
  - unfold listHandler. rewrite Hm. by eexists.
  - unfold findHandler. rewrite Hm. by eexists.
  - by apply elem_of_nil in Hr.
Qed.

(** C7: in each of the seven routes the handler makes one store call; when
    the call fails the handler replies with the store's error and then
    logs the same error, when it succeeds the handler replies with the
    result; either way one response is written. *)
Theorem handlers_forward_store_error (M : Model) (r : Route)
    (request : Request) (s : string) (store : StoreCall -> Outcome) :
  r ∈ restify M ->
  lodash_get (query request) "fields" (JStr "") = JStr s ->
  exists call,
    (forall e, store call = Rejected e ->
       run store (handler r request) =
         [EvStore call; EvReply (Failure e); EvLog e]) /\
    (forall v, store call = Resolved v ->
       run store (handler r request) =
         [EvStore call; EvReply (Success v)]) /\
    length (filter is_store (run store (handler r request))) = 1%nat /\
    length (filter is_reply (run store (handler r request))) = 1%nat.
Proof.
  intros Hr Hs.
  destruct (handler_is_chain M r request s Hr Hs) as (call & ->).
  exists call. rewrite run_chain.
  destruct (store call) as [v|e]; repeat split; intros ? [= <-]; done.
Qed.

(** When [fields] is neither absent nor a string, the handlers that build
    a projection throw before any store call and write no response. *)
Lemma get_handler_throws (M : Model) (request : Request) store :
  (forall s, lodash_get (query request) "fields" (JStr "") <> JStr s) ->
  run store (getHandler M request) = [].
Proof.
  intros Hs. unfold getHandler. by rewrite (select_throws M request Hs).
Qed.

(** C6: the PUT handler makes one store call, an update by key of the
    record at [id] with the payload and the option [new] set; against the
    store's contract it replies with the record as the collection holds it
    once the update has run, which is the payload written over the
    record. *)
Theorem put_handler_replies_updated (M : Model) (request : Request)
    (coll : StoreContract.Collection) (i : string) :
  js_get (params request) "id" = JStr i ->
  let call :=
    FindByIdAndUpdate (JStr i) (payload request) {| opt_new := true |} in
  handler (_putRoute M) request = Await call then_reply catch_reply_log /\
  run (StoreContract.settle coll) (handler (_putRoute M) request) =
    [ EvStore call;
      EvReply (Success (SDoc (StoreContract.after coll call !! i))) ] /\
  StoreContract.after coll call !! i =
    (fun d => payload request ∪ d) <$> coll !! i.
Proof.
  intros Hid call.
  change (handler (_putRoute M) request) with (putHandler M request).
  unfold putHandler. rewrite Hid. fold call.
  split; [reflexivity|]. rewrite run_chain. subst call.
  rewrite update_with_new_is_after. split; [reflexivity|].
  apply after_update_lookup.
Qed.

(** Without the option the same contract resolves with the record as it
    was before the update. *)
Lemma update_without_new_is_before (coll : StoreContract.Collection)
    (i : string) (data : jsobj) :
  StoreContract.settle coll
    (FindByIdAndUpdate (JStr i) data {| opt_new := false |})
  = Resolved (SDoc (coll !! i)).
Proof. simpl. by destruct (coll !! i). Qed.

End Handlers.

Lemma handlers_forward_store_error_witness :
  let request := query_request {[ "fields" := JStr "title" ]} in
  let store := fun _ : StoreCall =>
    Rejected (MkError "MongoError" "connection lost") in
  _findRoute Widget ∈ restify Widget /\
  lodash_get (query request) "fields" (JStr "") = JStr "title" /\
  exists call,
    (forall e, store call = Rejected e ->
       run store (handler (_findRoute Widget) request) =
         [EvStore call; EvReply (Failure e); EvLog e]) /\
    (forall v, store call = Resolved v ->
       run store (handler (_findRoute Widget) request) =
         [EvStore call; EvReply (Success v)]) /\
    length (filter is_store
              (run store (handler (_findRoute Widget) request))) = 1%nat /\
    length (filter is_reply
              (run store (handler (_findRoute Widget) request))) = 1%nat.
Proof.
  assert (Hr : _findRoute Widget ∈ restify Widget)
    by (do 6 apply list_elem_of_further; apply list_elem_of_here).
  split; [exact Hr|]. split; [reflexivity|].
  exact (handlers_forward_store_error Widget (_findRoute Widget)
           (query_request {[ "fields" := JStr "title" ]}) "title"
           (fun _ => Rejected (MkError "MongoError" "connection lost"))
           Hr eq_refl).
Defined.

(** A failing store on the find route: the error is the response, and it is
    logged. *)
Example find_handler_store_down :
  run (fun _ => Rejected (MkError "MongoError" "connection lost"))
      (findHandler Widget
         (query_request (<[ "fields" := JStr "title" ]>
                        (<[ "title" := JStr "Lamp" ]>
                        (<[ "limit" := JNum 10 ]>
                        (<[ "offset" := JNum 0 ]> ∅))))))
  = [ EvStore (Find {[ "title" := JStr "Lamp" ]} {[ "title" := 1 ]}
                 (JNum 10) (JNum 0));
      EvReply (Failure (MkError "MongoError" "connection lost"));
      EvLog (MkError "MongoError" "connection lost") ].
Proof. vm_compute. reflexivity. Qed.

Lemma put_handler_replies_updated_witness :
  let request := {| params := {[ "id" := JStr "42" ]}; query := ∅;
                    payload := {[ "price" := JNum 7 ]} |} in
  let coll : StoreContract.Collection :=
    {[ "42" := <[ "title" := JStr "Lamp" ]> (<[ "price" := JNum 5 ]> ∅) ]} in
  let call :=
    FindByIdAndUpdate (JStr "42") (payload request) {| opt_new := true |} in
  js_get (params request) "id" = JStr "42" /\
  handler (_putRoute Widget) request
    = Await call then_reply catch_reply_log /\
  run (StoreContract.settle coll) (handler (_putRoute Widget) request) =
    [ EvStore call;
      EvReply (Success (SDoc (StoreContract.after coll call !! "42"))) ] /\
  StoreContract.after coll call !! "42" =
    (fun d => payload request ∪ d) <$> coll !! "42".
Proof.
  split; [reflexivity|].
  exact (put_handler_replies_updated Widget
           {| params := {[ "id" := JStr "42" ]}; query := ∅;
              payload := {[ "price" := JNum 7 ]} |}
           {[ "42" := <[ "title" := JStr "Lamp" ]>
                      (<[ "price" := JNum 5 ]> ∅) ]}
           "42" eq_refl).
Defined.

(** Updating the price of a stored widget: the reply carries the new price,
    where the record before the update had the old one. *)
Example put_handler_scenario :
  let request := {| params := {[ "id" := JStr "42" ]}; query := ∅;
                    payload := {[ "price" := JNum 7 ]} |} in
  let before : Doc :=
    <[ "title" := JStr "Lamp" ]> (<[ "price" := JNum 5 ]> ∅) in
  let updated : Doc :=
    <[ "title" := JStr "Lamp" ]> (<[ "price" := JNum 7 ]> ∅) in
  run (StoreContract.settle {[ "42" := before ]}) (putHandler Widget request)
  = [ EvStore (FindByIdAndUpdate (JStr "42") {[ "price" := JNum 7 ]}
                 {| opt_new := true |});
      EvReply (Success (SDoc (Some updated))) ] /\
  before <> updated.
Proof.
  split; [vm_compute; reflexivity|].
  intros Heq. apply (f_equal (fun d : Doc => d !! "price")) in Heq.
  vm_compute in Heq. discriminate Heq.
Qed.

(** A list request without pagination parameters, once the validator has
    filled in the defaults, asks the store for 10 records from offset 0. *)
Example list_handler_defaults :
  (v_query (validate (config (_listRoute Widget))) ≫= fun keys =>
     Some (run (fun _ => Resolved (SDocs []))
             (listHandler Widget (query_request (joi_apply_defaults keys ∅)))))
  = Some [ EvStore (Find ∅ ∅ (JNum 10) (JNum 0));
           EvReply (Success (SDocs [])) ].
Proof. vm_compute. reflexivity. Qed.

(** * Further properties of the code *)

(** ** Tokens of the [fields] parameter *)

Lemma split_app sep s1 s2 :
  split sep (s1 ++ String sep s2) = (split sep s1 ++ split sep s2)%list.
Proof.
  induction s1 as [|c s1 IH]; simpl.
  - by rewrite decide_True.
  - destruct (decide (c = sep)) as [->|Hne]; [by rewrite IH|].
    rewrite IH. pose proof (split_nonempty sep s1) as Hs.
    by destruct (split sep s1).
Qed.

(** A character of a piece is a character of the string. *)
Lemma split_occurs sep c s : forall t,
  t ∈ split sep s -> occurs c t = true -> occurs c s = true.
Proof.
  induction s as [|d s IH]; simpl; intros t Ht Hc.
  - apply list_elem_of_singleton in Ht as ->. done.
  - destruct (decide (d = sep)) as [->|Hne].
    + apply elem_of_cons in Ht as [->|Ht]; [done|].
      rewrite (IH t Ht Hc). apply orb_true_r.
    + pose proof (split_nonempty sep s) as Hs.
      destruct (split sep s) as [|u us]; [done|].
      apply elem_of_cons in Ht as [->|Ht].
      * simpl in Hc. apply orb_true_iff in Hc as [Hc|Hc].
        -- by rewrite Hc.
        -- rewrite (IH u) by (done || apply list_elem_of_here).
           apply orb_true_r.
      * rewrite (IH t) by (done || by apply list_elem_of_further).
        apply orb_true_r.
Qed.

Lemma all_chars_occurs p c s :
  all_chars p s = true -> occurs c s = true -> p c = true.
Proof.
  induction s as [|d s IH]; simpl; [done|].
  intros [Hd Hs]%andb_true_iff [Hc|Hc]%orb_true_iff.
  - apply bool_decide_eq_true in Hc as <-. done.
  - by apply IH.
Qed.

(** A string of separators splits into empty pieces. *)
Lemma split_all_sep sep s :
  all_chars (fun c => bool_decide (c = sep)) s = true ->
  Forall (fun t => t = EmptyString) (split sep s).
Proof.
  induction s as [|d s IH]; simpl; intros Hs.
  - by constructor.
  - apply andb_true_iff in Hs as [Hd Hs].
    apply bool_decide_eq_true in Hd as ->.
    rewrite decide_True by done. constructor; [done|by apply IH].
Qed.

(** X1: no token is empty and no token contains a comma. *)
Theorem urlFields_tokens_wellformed (s : string) :
  Forall (fun t => t <> "" /\ occurs "," t = false) (urlFields s).
Proof.
  apply Forall_forall. intros t Ht.
  apply elem_of_urlFields in Ht as [Ht Hne]. split; [exact Hne|].
  pose proof (split_no_sep "," s) as Hall.
  rewrite Forall_forall in Hall. by apply Hall.
Qed.

(** X2: the tokens of two parameters joined by a comma are the tokens of the
    first followed by the tokens of the second. *)
Theorem urlFields_comma_app (s1 s2 : string) :
  urlFields (s1 ++ "," ++ s2) = (urlFields s1 ++ urlFields s2)%list.
Proof.
  unfold urlFields.
  change ("," ++ s2) with (String "," s2).
  rewrite split_app. apply List.filter_app.
Qed.

(** ** More on the projection object *)

Lemma urlFields_all_commas s :
  all_chars (fun c => bool_decide (c = ","%char)) s = true ->
  urlFields s = [].
Proof.
  intros Hs. unfold urlFields.
  pose proof (split_all_sep "," s Hs) as Hall.
  induction Hall as [|t ts -> _ IH]; simpl; done.
Qed.

Lemma includes_ext xs ys x :
  (forall t, t ∈ xs <-> t ∈ ys) -> includes xs x = includes ys x.
Proof. intros Heq. unfold includes. apply bool_decide_ext, Heq. Qed.

Section ProjectionMore.

Context {Model : Type} `{ModelEnv Model}.

(** X3: when [fields] is absent, or is a string of commas only (the empty
    string among them), the projection is the empty object, whatever fields
    the model has. *)
Theorem select_obj_no_token (M : Model) (request : Request) :
  js_get (query request) "fields" = JUndefined \/
  (exists s, js_get (query request) "fields" = JStr s /\
             all_chars (fun c => bool_decide (c = ","%char)) s = true) ->
  _getSelectObjFromFieldsInUrl M request = Normal ∅.
Proof.
  unfold _getSelectObjFromFieldsInUrl, lodash_get.
  intros [-> | (s & -> & Hs)].
  - reflexivity.
  - by rewrite (urlFields_all_commas s Hs).
Qed.

(** X4: the projection depends on the tokens and on the model's fields as
    sets only: the order of the tokens, of the fields, and repetitions in
    either make no difference. *)
Theorem select_obj_set_extensional (M1 M2 : Model)
    (request1 request2 : Request) (s1 s2 : string) :
  lodash_get (query request1) "fields" (JStr "") = JStr s1 ->
  lodash_get (query request2) "fields" (JStr "") = JStr s2 ->
  (forall t, t ∈ urlFields s1 <-> t ∈ urlFields s2) ->
  (forall f, f ∈ getAllModelFields M1 <-> f ∈ getAllModelFields M2) ->
  _getSelectObjFromFieldsInUrl M1 request1 =
  _getSelectObjFromFieldsInUrl M2 request2.
Proof.
  intros Hs1 Hs2 Htoks Hflds.
  destruct (select_lookup M1 request1 s1 Hs1) as (m1 & -> & Hl1).
  destruct (select_lookup M2 request2 s2 Hs2) as (m2 & -> & Hl2).
  f_equal. apply map_eq. intros k. rewrite Hl1, Hl2.
  rewrite (includes_ext _ _ k Htoks), (includes_ext _ _ ("-" ++ k) Htoks).
  destruct (decide (k ∈ getAllModelFields M1)) as [H1|H1],
           (decide (k ∈ getAllModelFields M2)) as [H2|H2];
    try done; by apply Hflds in H1 || by apply Hflds in H2.
Qed.

(** X5: a flag of the projection is 1 or 0; it is 1 only for a field that a
    bare token names, and 0 only for a field named by a [-] token and by no
    bare token. *)
Theorem select_obj_flag_origin (M : Model) (request : Request)
    (s : string) (m : gmap string Z) (f : string) (v : Z) :
  lodash_get (query request) "fields" (JStr "") = JStr s ->
  _getSelectObjFromFieldsInUrl M request = Normal m ->
  m !! f = Some v ->
  (v = 1 /\ f ∈ urlFields s) \/
  (v = 0 /\ ("-" ++ f) ∈ urlFields s /\ f ∉ urlFields s).
Proof.
  intros Hs Hm Hv.
  destruct (select_lookup M request s Hs) as (m' & Hm' & Hlk).
  rewrite Hm in Hm'. injection Hm' as <-. rewrite Hlk in Hv.
  destruct (decide (f ∈ getAllModelFields M)); [|done].
  destruct (includes (urlFields s) f) eqn:Hinc.
  { left. apply includes_true in Hinc. by injection Hv as <-. }
  destruct (includes (urlFields s) ("-" ++ f)) eqn:Hexc; [|done].
  right. apply includes_false in Hinc. apply includes_true in Hexc.
  by injection Hv as <-.
Qed.

(** X6: a [fields] string that matches the pattern of [_JoiFields] holds no
    [-], so every flag of its projection is 1: no field is excluded. *)
Theorem select_obj_validated_includes_only (M : Model) (request : Request)
    (s : string) (m : gmap string Z) (f : string) (v : Z) :
  js_get (query request) "fields" = JStr s ->
  fields_pattern s = true ->
  _getSelectObjFromFieldsInUrl M request = Normal m ->
  m !! f = Some v ->
  v = 1.
Proof.
  intros Hs%fields_param_string Hpat Hm Hv.
  destruct (select_lookup M request s Hs) as (m' & Hm' & Hlk).
  rewrite Hm in Hm'. injection Hm' as <-. rewrite Hlk in Hv.
  destruct (decide (f ∈ getAllModelFields M)); [|done].
  destruct (includes (urlFields s) f); [by injection Hv|].
  destruct (includes (urlFields s) ("-" ++ f)) eqn:Hexc; [|done].
  exfalso. apply includes_true, elem_of_urlFields in Hexc as [Hexc _].
  apply andb_true_iff in Hpat as [_ Hpat].
  assert (Hdash : fields_class "-" = true).
  { apply (all_chars_occurs _ _ s Hpat).
    apply (split_occurs "," "-" s _ Hexc). reflexivity. }
  vm_compute in Hdash. discriminate Hdash.
Qed.

End ProjectionMore.

Lemma select_obj_no_token_witness :
  let request := query_request {[ "fields" := JStr ",,," ]} in
  (js_get (query request) "fields" = JUndefined \/
   (exists s, js_get (query request) "fields" = JStr s /\
              all_chars (fun c => bool_decide (c = ","%char)) s = true)) /\
  _getSelectObjFromFieldsInUrl Widget request = Normal ∅.
Proof.
  assert (Hhyp :
    js_get (query (query_request {[ "fields" := JStr ",,," ]})) "fields"
      = JUndefined \/
    (exists s,
       js_get (query (query_request {[ "fields" := JStr ",,," ]})) "fields"
         = JStr s /\
       all_chars (fun c => bool_decide (c = ","%char)) s = true)).
  { right. exists ",,,". split; reflexivity. }
  split; [exact Hhyp|].
  exact (select_obj_no_token Widget
           (query_request {[ "fields" := JStr ",,," ]}) Hhyp).
Defined.

Lemma select_obj_set_extensional_witness :
  let request1 := query_request {[ "fields" := JStr "title,-price" ]} in
  let request2 :=
    query_request {[ "fields" := JStr "-price,,title,title" ]} in
  lodash_get (query request1) "fields" (JStr "") = JStr "title,-price" /\
  lodash_get (query request2) "fields" (JStr "")
    = JStr "-price,,title,title" /\
  (forall t, t ∈ urlFields "title,-price" <->
             t ∈ urlFields "-price,,title,title") /\
  (forall f, f ∈ getAllModelFields Widget <-> f ∈ getAllModelFields Widget) /\
  _getSelectObjFromFieldsInUrl Widget request1 =
  _getSelectObjFromFieldsInUrl Widget request2.
Proof.
  assert (Htoks : forall t, t ∈ urlFields "title,-price" <->
                            t ∈ urlFields "-price,,title,title").
  { intros t. change (urlFields "title,-price") with ["title"; "-price"].
    change (urlFields "-price,,title,title")
      with ["-price"; "title"; "title"].
    rewrite !elem_of_cons, !elem_of_nil. tauto. }
  assert (Hflds : forall f, f ∈ getAllModelFields Widget <->
                            f ∈ getAllModelFields Widget) by done.
  split; [reflexivity|]. split; [reflexivity|].
  split; [exact Htoks|]. split; [exact Hflds|].
  exact (select_obj_set_extensional Widget Widget
           (query_request {[ "fields" := JStr "title,-price" ]})
           (query_request {[ "fields" := JStr "-price,,title,title" ]})
           "title,-price" "-price,,title,title"
           eq_refl eq_refl Htoks Hflds).
Defined.

Lemma select_obj_flag_origin_witness :
  let request := query_request {[ "fields" := JStr "title,-price" ]} in
  let m : gmap string Z := <[ "title" := 1 ]> (<[ "price" := 0 ]> ∅) in
  lodash_get (query request) "fields" (JStr "") = JStr "title,-price" /\
  _getSelectObjFromFieldsInUrl Widget request = Normal m /\
  m !! "price" = Some 0 /\
  ((0 = 1 /\ "price" ∈ urlFields "title,-price") \/
   (0 = 0 /\ ("-" ++ "price") ∈ urlFields "title,-price" /\
    "price" ∉ urlFields "title,-price")).
Proof.
  assert (Hm : _getSelectObjFromFieldsInUrl Widget
                 (query_request {[ "fields" := JStr "title,-price" ]})
               = Normal (<[ "title" := 1 ]> (<[ "price" := 0 ]> ∅)))
    by (vm_compute; reflexivity).
  split; [reflexivity|]. split; [exact Hm|]. split; [reflexivity|].
  exact (select_obj_flag_origin Widget
           (query_request {[ "fields" := JStr "title,-price" ]})
           "title,-price" (<[ "title" := 1 ]> (<[ "price" := 0 ]> ∅))
           "price" 0 eq_refl Hm eq_refl).
Defined.

Lemma select_obj_validated_includes_only_witness :
  let request := query_request {[ "fields" := JStr "title,price" ]} in
  let m : gmap string Z := <[ "title" := 1 ]> (<[ "price" := 1 ]> ∅) in
  js_get (query request) "fields" = JStr "title,price" /\
  fields_pattern "title,price" = true /\
  _getSelectObjFromFieldsInUrl Widget request = Normal m /\
  m !! "price" = Some 1 /\
  1 = 1.
Proof.
  assert (Hm : _getSelectObjFromFieldsInUrl Widget
                 (query_request {[ "fields" := JStr "title,price" ]})
               = Normal (<[ "title" := 1 ]> (<[ "price" := 1 ]> ∅)))
    by (vm_compute; reflexivity).
  split; [reflexivity|]. split; [reflexivity|]. split; [exact Hm|].
  split; [reflexivity|].
  exact (select_obj_validated_includes_only Widget
           (query_request {[ "fields" := JStr "title,price" ]})
           "title,price" (<[ "title" := 1 ]> (<[ "price" := 1 ]> ∅))
           "price" 1 eq_refl eq_refl Hm eq_refl).
Defined.

(** The pattern rejects the [-] of an exclusion token and the empty
    string. *)
Example fields_pattern_samples :
  fields_pattern "title,price" = true /\
  fields_pattern "first_Name9" = true /\
  fields_pattern "title,-price" = false /\
  fields_pattern "" = false /\
  fields_pattern "a b" = false.
Proof. repeat split. Qed.

(** ** More on the filter object *)

Section FilterMore.

Context {Model : Type} `{ModelEnv Model}.



(** X9: when the model declares a field named [limit], the find handler
    uses the [limit] parameter twice: as the page size of the store call and
    as an equality condition of its filter. *)
Theorem find_handler_limit_collision (M : Model) (request : Request)
    (s : string) (v : jsval) :
  lodash_get (query request) "fields" (JStr "") = JStr s ->
  "limit" ∈ getSchemaModelFields M ->
  js_get (query request) "limit" = v ->
  v <> JUndefined -> v <> JStr "" ->
  exists conditions select,
    handler (_findRoute M) request =
      Await (Find conditions select v (js_get (query request) "offset"))
            then_reply catch_reply_log /\
    conditions !! "limit" = Some v.
Proof.
  intros Hs Hdecl Hv Hundef Hempty.
  destruct (select_lookup M request s Hs) as (m & Hm & _).
  exists (_getQueryObjFromFieldsInUrl M request), m. split.
  - change (handler (_findRoute M) request) with (findHandler M request).
    unfold findHandler. by rewrite Hm, Hv.
  - rewrite query_lookup, decide_True by done. rewrite Hv.
    by destruct v as [| |b|n|[|c t]].
Qed.

End FilterMore.

Lemma find_handler_limit_collision_witness :
  let request := query_request {[ "limit" := JNum 5 ]} in
  lodash_get (query request) "fields" (JStr "") = JStr "" /\
  "limit" ∈ getSchemaModelFields Clash /\
  js_get (query request) "limit" = JNum 5 /\
  JNum 5 <> JUndefined /\ JNum 5 <> JStr "" /\
  exists conditions select,
    handler (_findRoute Clash) request =
      Await (Find conditions select (JNum 5)
               (js_get (query request) "offset"))
            then_reply catch_reply_log /\
    conditions !! "limit" = Some (JNum 5).
Proof.
  assert (Hdecl : "limit" ∈ getSchemaModelFields Clash)
    by decide_by_compute.
  assert (H1 : JNum 5 <> JUndefined) by discriminate.
  assert (H2 : JNum 5 <> JStr "") by discriminate.
  split; [reflexivity|]. split; [exact Hdecl|]. split; [reflexivity|].
  split; [exact H1|]. split; [exact H2|].
  exact (find_handler_limit_collision Clash
           (query_request {[ "limit" := JNum 5 ]}) "" (JNum 5)
           eq_refl Hdecl eq_refl H1 H2).
Defined.

(** ** More on the handlers *)

Section HandlersMore.

Context {Model : Type} `{ModelEnv Model}.

(** The chain every handler ends with handles its own failure. *)
Lemma exec_chain store call :
  exec store (Await call then_reply catch_reply_log) =
    (EvStore call ::
       match store call with
       | Resolved v => [EvReply (Success v)]
       | Rejected e => [EvReply (Failure e); EvLog e]
       end,
     None).
Proof. simpl. by destruct (store call). Qed.

(** X10: the POST, PUT, DELETE and count handlers read no [fields]
    parameter: for every request whatsoever they make one store call, reply
    once, log the error when the call fails, and end without an error of
    their own. *)
Theorem plain_handlers_complete (M : Model) (r : Route)
    (request : Request) (store : StoreCall -> Outcome) :
  r ∈ [ _postRoute M; _putRoute M; _deleteRoute M; _countRoute M ] ->
  exists call,
    exec store (handler r request) =
      (EvStore call ::
         match store call with
         | Resolved v => [EvReply (Success v)]
         | Rejected e => [EvReply (Failure e); EvLog e]
         end,
       None).
Proof.
  intros Hr.
  repeat (apply elem_of_cons in Hr as [->|Hr]);
    [..|by apply elem_of_nil in Hr];
    eexists; apply exec_chain.
Qed.

(** X11: when [fields] is present and not a string, the GET-by-id, list and
    find handlers end with a [TypeError] before the store is called: no
    store call, no response, no log entry. *)
Theorem projection_handlers_throw (M : Model) (r : Route)
    (request : Request) (store : StoreCall -> Outcome) :
  r ∈ [ _getRoute M; _listRoute M; _findRoute M ] ->
  (forall s, lodash_get (query request) "fields" (JStr "") <> JStr s) ->
  exists e, exec store (handler r request) = ([], Some e) /\
            err_name e = "TypeError".
Proof.
  intros Hr Hs. exists split_type_error. split; [|reflexivity].
  pose proof (select_throws M request Hs) as Hthrow.
  repeat (apply elem_of_cons in Hr as [->|Hr]);
    [..|by apply elem_of_nil in Hr]; simpl.
  - unfold getHandler. by rewrite Hthrow.
  - unfold listHandler. by rewrite Hthrow.
  - unfold findHandler. by rewrite Hthrow.
Qed.

(** X15: a list request that names neither [limit], [offset] nor [fields]
    reaches the handler with the defaults of the route's schema, and the
    handler asks the store for 10 records from offset 0, unfiltered and with
    no projection. *)
Theorem list_handler_default_call (M : Model) (q : jsobj) :
  exists keys,
    v_query (validate (config (_listRoute M))) = Some keys /\
    handler (_listRoute M)
      (query_request
         (joi_apply_defaults keys
            (delete "limit" (delete "offset" (delete "fields" q)))))
    = Await (Find ∅ ∅ (JNum 10) (JNum 0)) then_reply catch_reply_log.
Proof.
  destruct (list_route_query M) as (keys & Hk & Hl & Ho & Hf).
  exists keys. split; [exact Hk|].
  set (q0 := delete "limit" (delete "offset" (delete "fields" q))).
  assert (H1 : q0 !! "limit" = None) by apply lookup_delete_eq.
  assert (H2 : q0 !! "offset" = None).
  { unfold q0. rewrite lookup_delete_ne by done. apply lookup_delete_eq. }
  assert (H3 : q0 !! "fields" = None).
  { unfold q0. rewrite !lookup_delete_ne by done. apply lookup_delete_eq. }
  change (handler (_listRoute M) ?x) with (listHandler M x).
  unfold listHandler, _getSelectObjFromFieldsInUrl, lodash_get. simpl.
  rewrite (joi_default_effective keys q0 "limit" _JoiLimit (JNum 10))
    by done.
  rewrite (joi_default_effective keys q0 "offset" _JoiOffset (JNum 0))
    by done.
  rewrite (joi_default_effective keys q0 "fields" _JoiFields (JStr ""))
    by done.
  reflexivity.
Qed.

End HandlersMore.

Lemma plain_handlers_complete_witness :
  let request := query_request {[ "fields" := JNum 5 ]} in
  let store := fun _ : StoreCall => Resolved (SCount 3) in
  _countRoute Widget ∈ [ _postRoute Widget; _putRoute Widget;
                         _deleteRoute Widget; _countRoute Widget ] /\
  exists call,
    exec store (handler (_countRoute Widget) request) =
      (EvStore call ::
         match store call with
         | Resolved v => [EvReply (Success v)]
         | Rejected e => [EvReply (Failure e); EvLog e]
         end,
       None).
Proof.
  assert (Hr : _countRoute Widget ∈ [ _postRoute Widget; _putRoute Widget;
                                      _deleteRoute Widget; _countRoute Widget ])
    by (do 3 apply list_elem_of_further; apply list_elem_of_here).
  split; [exact Hr|].
  exact (plain_handlers_complete Widget (_countRoute Widget)
           (query_request {[ "fields" := JNum 5 ]})
           (fun _ => Resolved (SCount 3)) Hr).
Defined.

Lemma projection_handlers_throw_witness :
  let request := query_request {[ "fields" := JNum 5 ]} in
  let store := fun _ : StoreCall => Resolved (SDocs []) in
  _listRoute Widget ∈ [ _getRoute Widget; _listRoute Widget;
                        _findRoute Widget ] /\
  (forall s, lodash_get (query request) "fields" (JStr "") <> JStr s) /\
  exists e, exec store (handler (_listRoute Widget) request) = ([], Some e) /\
            err_name e = "TypeError".
Proof.
  assert (Hr : _listRoute Widget ∈ [ _getRoute Widget; _listRoute Widget;
                                     _findRoute Widget ])
    by (apply list_elem_of_further; apply list_elem_of_here).
  assert (Hs : forall s,
    lodash_get (query (query_request {[ "fields" := JNum 5 ]})) "fields"
      (JStr "") <> JStr s).
  { intros s Hc. vm_compute in Hc. discriminate Hc. }
  split; [exact Hr|]. split; [exact Hs|].
  exact (projection_handlers_throw Widget (_listRoute Widget)
           (query_request {[ "fields" := JNum 5 ]})
           (fun _ => Resolved (SDocs [])) Hr Hs).
Defined.

(** ** More on the routes *)

Lemma path_suffix_inj (n a b : string) : n ++ a = n ++ b -> a = b.
Proof. induction n as [|c n IH]; simpl; [done|]. intros [= Heq]. auto. Qed.

Section RoutesMore.

Context {Model : Type} `{ModelEnv Model}.

(** X13: no two of the seven routes have the same method and path, whatever
    the name of the model. *)
Theorem restify_routes_distinct (M : Model) :
  NoDup (map (fun r => (method r, path r)) (restify M)).
Proof.
  simpl.
  repeat (apply NoDup_cons; split;
    [ rewrite ?elem_of_cons, elem_of_nil;
      intros Hin;
      repeat (destruct Hin as [Hin|Hin]); try done;
      apply pair_equal_spec in Hin as [Hm Hp];
      first [ discriminate Hm
            | do 2 apply path_suffix_inj in Hp; discriminate Hp ]
    | ]).
  apply NoDup_nil_2.
Qed.

(** X14: the query schema of the find route, key by key: [limit], [offset]
    and [fields] carry the pagination and projection schemas, every other
    key carries what the model's schema has for it, and a key the model does
    not declare is not in the schema. *)
Theorem find_route_query_lookup (M : Model) (k : string) :
  (v_query (validate (config (_findRoute M))) ≫= (.!! k)) =
    if decide (k = "limit") then Some _JoiLimit
    else if decide (k = "offset") then Some _JoiOffset
    else if decide (k = "fields") then Some _JoiFields
    else joiValidate M !! k.
Proof.
  rewrite find_route_query. simpl.
  destruct (decide (k = "limit")) as [->|Hl];
    [by apply lookup_union_Some_l|].
  destruct (decide (k = "offset")) as [->|Ho];
    [by apply lookup_union_Some_l|].
  destruct (decide (k = "fields")) as [->|Hf];
    [by apply lookup_union_Some_l|].
  apply lookup_union_r.
  by rewrite !lookup_insert_ne, lookup_empty.
Qed.

End RoutesMore.

(** ** Joining two [fields] parameters *)

Lemma includes_app xs ys x :
  includes (xs ++ ys)%list x = includes xs x || includes ys x.
Proof.
  unfold includes. rewrite <- bool_decide_or.
  apply bool_decide_ext, elem_of_app.
Qed.

Lemma urlFields_join s1 s2 :
  urlFields (s1 ++ "," ++ s2) = (urlFields s1 ++ urlFields s2)%list.
Proof.
  unfold urlFields. change ("," ++ s2) with (String "," s2).
  rewrite split_app. apply List.filter_app.
Qed.

Section ProjectionJoin.

Context {Model : Type} `{ModelEnv Model}.

(** X12: the projection of two parameters joined by a comma is the union of
    the projections of the two, a field flagged by both taking the larger
    flag: an inclusion on either side wins over an exclusion on the other. *)
Theorem select_obj_join (M : Model) (request1 request2 request12 : Request)
    (s1 s2 : string) :
  lodash_get (query request1) "fields" (JStr "") = JStr s1 ->
  lodash_get (query request2) "fields" (JStr "") = JStr s2 ->
  lodash_get (query request12) "fields" (JStr "")
    = JStr (s1 ++ "," ++ s2) ->
  exists m1 m2,
    _getSelectObjFromFieldsInUrl M request1 = Normal m1 /\
    _getSelectObjFromFieldsInUrl M request2 = Normal m2 /\
    _getSelectObjFromFieldsInUrl M request12 =
      Normal (union_with (fun a b => Some (Z.max a b)) m1 m2).
Proof.
  intros Hs1 Hs2 Hs12.
  destruct (select_lookup M request1 s1 Hs1) as (m1 & Hm1 & Hl1).
  destruct (select_lookup M request2 s2 Hs2) as (m2 & Hm2 & Hl2).
  destruct (select_lookup M request12 _ Hs12) as (m12 & Hm12 & Hl12).
  exists m1, m2. split; [exact Hm1|]. split; [exact Hm2|].
  rewrite Hm12. f_equal. apply map_eq. intros k.
  rewrite lookup_union_with, Hl1, Hl2, Hl12, urlFields_join, !includes_app.
  destruct (decide (k ∈ getAllModelFields M)); [|done].
  destruct (includes (urlFields s1) k), (includes (urlFields s2) k),
    (includes (urlFields s1) ("-" ++ k)),
    (includes (urlFields s2) ("-" ++ k)); reflexivity.
Qed.

End ProjectionJoin.

Lemma select_obj_join_witness :
  let request1 := query_request {[ "fields" := JStr "-title,-price" ]} in
  let request2 := query_request {[ "fields" := JStr "title" ]} in
  let request12 :=
    query_request {[ "fields" := JStr "-title,-price,title" ]} in
  lodash_get (query request1) "fields" (JStr "") = JStr "-title,-price" /\
  lodash_get (query request2) "fields" (JStr "") = JStr "title" /\
  lodash_get (query request12) "fields" (JStr "")
    = JStr ("-title,-price" ++ "," ++ "title") /\
  exists m1 m2,
    _getSelectObjFromFieldsInUrl Widget request1 = Normal m1 /\
    _getSelectObjFromFieldsInUrl Widget request2 = Normal m2 /\
    _getSelectObjFromFieldsInUrl Widget request12 =
      Normal (union_with (fun a b => Some (Z.max a b)) m1 m2).
Proof.
  split; [reflexivity|]. split; [reflexivity|]. split; [reflexivity|].
  exact (select_obj_join Widget
           (query_request {[ "fields" := JStr "-title,-price" ]})
           (query_request {[ "fields" := JStr "title" ]})
           (query_request {[ "fields" := JStr "-title,-price,title" ]})
           "-title,-price" "title" eq_refl eq_refl eq_refl).
Defined.

(** Joining [-title,-price] and [title]: the title is included, the price
    stays excluded. *)
Example select_obj_join_scenario :
  _getSelectObjFromFieldsInUrl Widget
    (query_request {[ "fields" := JStr "-title,-price,title" ]})
  = Normal (<[ "title" := 1 ]> (<[ "price" := 0 ]> ∅)).
Proof. vm_compute. reflexivity. Qed.
